(** * spok: the documentation tasks of [noxfile.py]

    The noxfile defines three nox sessions, [build], [serve] and [publish].
    Each one is a straight line of calls on the session handle
    ([session.install], [session.run], [session.error]) and on the
    [webbrowser] module, with two reads of the process environment
    ([os.getenv]).  The embedding keeps exactly that: a task is a
    computation that reads the environment, appends the calls it issues to
    a log and either returns or quits through [session.error]. *)

From Stdlib Require Import ZArith.
From stdpp Require Import gmap strings list.

Open Scope string_scope.
Open Scope list_scope.

(** ** The process a task runs in *)

(** A call a task issues to one of its collaborators.
    [Install args] is [session.install] called on the arguments [args],
    [Run args external] is [session.run] called on the arguments [args]
    with the keyword [external] ([False] when it is left out), and
    [BrowserOpen url] is [webbrowser.open] called on [url]. *)
Inductive Action : Type :=
| Install (args : list string)
| Run (args : list string) (external : bool)
| BrowserOpen (url : string).

(** How a task ends: it returns, or [session.error] raised and nox marks
    the session as failed with the given message. *)
Inductive Result (A : Type) : Type :=
| Done (a : A)
| Quit (msg : string).
Arguments Done {A} a.
Arguments Quit {A} msg.

(** [os.environ] is a mapping from names to strings; nothing in the
    noxfile writes to it, so a task only reads it.  The log of calls is
    kept in the order in which they are issued. *)
Definition Task (A : Type) : Type :=
  gmap string string → list Action → list Action * Result A.

#[global] Instance task_ret : MRet Task :=
  λ A a, λ _ log, (log, Done a).

#[global] Instance task_bind : MBind Task :=
  λ A B k m, λ env log,
    match m env log with
    | (log', Done a) => k a env log'
    | (log', Quit msg) => (log', Quit msg)
    end.

(** [os.getenv(key)]: the value, or [None] when the variable is not set. *)
Definition os_getenv (key : string) : Task (option string) :=
  λ env log, (log, Done (env !! key)).

(** The collaborators (pip, mkdocs, git, the browser) are opaque: a call is
    appended to the log and returns.  What a tool does when it fails is the
    tool's and nox's business, not the noxfile's. *)
Definition call (a : Action) : Task unit :=
  λ _ log, (log ++ [a], Done tt).

Definition session_install (args : list string) : Task unit :=
  call (Install args).

Definition session_run (args : list string) (external : bool) : Task unit :=
  call (Run args external).

Definition webbrowser_open (url : string) : Task unit :=
  call (BrowserOpen url).

(** [session.error(msg)] never returns: it raises, which ends the task. *)
Definition session_error {A : Type} (msg : string) : Task A :=
  λ _ log, (log, Quit msg).

(** A Python [if c: body] with no [else]. *)
Definition when (c : bool) (body : Task unit) : Task unit :=
  if c then body else mret tt.

(** Python's truth value of what [os.getenv] returns: [None] and the empty
    string are false, every other string is true. *)
Definition truthy (v : option string) : bool :=
  match v with
  | None => false
  | Some EmptyString => false
  | Some (String _ _) => true
  end.

(** What an f-string puts in place of [{v}]: [str(v)]. *)
Definition format_value (v : option string) : string :=
  match v with
  | None => "None"
  | Some s => s
  end.

(** Running a task in an environment, from an empty log. *)
Definition exec {A : Type} (env : gmap string string) (t : Task A)
  : list Action * Result A := t env [].

Definition trace {A : Type} (env : gmap string string) (t : Task A)
  : list Action := (exec env t).1.

Definition outcome {A : Type} (env : gmap string string) (t : Task A)
  : Result A := (exec env t).2.

(** The exit status nox reports for a session: zero when it returned, one
    when it failed. *)
Definition exit_status {A : Type} (r : Result A) : Z :=
  match r with
  | Done _ => 0
  | Quit _ => 1
  end.

(** ** The noxfile *)

(** [ON_CI = bool(os.getenv("CI"))].  It is a module global, evaluated when
    the noxfile is loaded; the environment does not change afterwards, so
    reading it where it is used gives the same value. *)
Definition ON_CI : Task bool :=
  ci ← os_getenv "CI"; mret (truthy ci).

Definition DOCS_DEPS : list string :=
  [ "mkdocs";
    "mkdocs-material";
    "mkdocs-include-markdown-plugin" ].

(** [nox.options.sessions = ("serve",)] *)
Definition options_sessions : list string := [ "serve" ].

Definition build : Task unit :=
  session_install [ "--upgrade"; "pip"; "setuptools"; "wheel" ];;
  session_install DOCS_DEPS;;
  session_run [ "mkdocs"; "build"; "--clean" ] false.

Definition serve : Task unit :=
  session_install [ "--upgrade"; "pip"; "setuptools"; "wheel" ];;
  session_install DOCS_DEPS;;
  webbrowser_open "http://127.0.0.1:8000/spok/";;
  session_run [ "mkdocs"; "serve" ] false.

Definition publish : Task unit :=
  token ← os_getenv "GITHUB_TOKEN";
  when (negb (truthy token))
    (session_error
       "Cannot deploy docs without a $GITHUB_TOKEN environment variable");;
  session_install [ "--upgrade"; "pip"; "setuptools"; "wheel" ];;
  session_install DOCS_DEPS;;
  on_ci ← ON_CI;
  if (on_ci : bool) then
    session_run
      [ "git"; "remote"; "add"; "gh-token";
        "https://" +:+ format_value token
          +:+ "@github.com/FollowTheProcess/spok.git" ]
      true;;
    session_run [ "git"; "fetch"; "gh-token" ] true;;
    session_run [ "git"; "fetch"; "gh-token"; "gh-pages:gh-pages" ] true;;
    session_run
      [ "mkdocs"; "gh-deploy"; "-v"; "--clean"; "--remote-name"; "gh-token" ]
      false
  else
    session_run [ "mkdocs"; "gh-deploy" ] false.

(** The sessions the noxfile registers with [@nox.session], under the
    names of their functions. *)
Definition registry : list (string * Task unit) :=
  [ ("build", build); ("serve", serve); ("publish", publish) ].

(** ** Reading a log *)

Definition is_installer (a : Action) : bool :=
  match a with Install _ => true | _ => false end.

Definition is_browser (a : Action) : bool :=
  match a with BrowserOpen _ => true | _ => false end.

(** A command line whose program is [prog]. *)
Definition runs (prog : string) (a : Action) : bool :=
  match a with
  | Run (p :: _) _ => String.eqb p prog
  | _ => false
  end.

(** A command line whose program is [prog] and whose first argument is
    [sub]. *)
Definition runs_sub (prog sub : string) (a : Action) : bool :=
  match a with
  | Run (p :: s :: _) _ => String.eqb p prog && String.eqb s sub
  | _ => false
  end.

Definition is_generator : Action → bool := runs "mkdocs".
Definition is_vcs : Action → bool := runs "git".
Definition is_build : Action → bool := runs_sub "mkdocs" "build".
Definition is_serve : Action → bool := runs_sub "mkdocs" "serve".
Definition is_deploy : Action → bool := runs_sub "mkdocs" "gh-deploy".

(** [arg] occurs among the arguments of the call. *)
Definition has_arg (arg : string) (a : Action) : bool :=
  match a with
  | Install args | Run args _ => existsb (String.eqb arg) args
  | BrowserOpen _ => false
  end.

Definition count (p : Action → bool) (log : list Action) : nat :=
  length (List.filter p log).

(** [sub] occurs inside [s]. *)
Definition contains (sub s : string) : Prop :=
  ∃ before after, s = before +:+ sub +:+ after.

(** The CI branch of [publish] is the only place that calls the
    version-control client; the other branch is the only place that
    deploys without naming a remote. *)
Definition takes_ci_branch (env : gmap string string) : bool :=
  existsb is_vcs (trace env publish).

Definition takes_local_branch (env : gmap string string) : bool :=
  existsb (λ a, is_deploy a && negb (has_arg "--remote-name" a))
    (trace env publish).

(** The arguments of the first [session.install] of every task. *)
Definition TOOLING : list string :=
  [ "--upgrade"; "pip"; "setuptools"; "wheel" ].

(** The message [publish] hands to [session.error]. *)
Definition NO_TOKEN : string :=
  "Cannot deploy docs without a $GITHUB_TOKEN environment variable".

(** The documentation dependencies are installed, and installed before the
    site generator is first called. *)
Definition docs_installed_first (log : list Action) : Prop :=
  List.filter is_installer log = [ Install TOOLING; Install DOCS_DEPS ]
  ∧ (∃ a, a ∈ log ∧ is_generator a = true)
  ∧ ∀ before a after,
      log = before ++ a :: after → is_generator a = true →
      Install DOCS_DEPS ∈ before.

(** ** Reading a command line *)

(** The flag a command was run with: [external=True] marks a program that
    is not installed in the session's virtualenv. *)
Definition is_external (a : Action) : bool :=
  match a with
  | Run _ external => external
  | _ => false
  end.


(** The argument that follows [flag] on a command line. *)
Fixpoint arg_after (flag : string) (args : list string) : option string :=
  match args with
  | [] => None
  | a :: rest => if String.eqb a flag then head rest else arg_after flag rest
  end.

(** The remote a call creates: [name] in [git remote add name url]. *)
Definition remote_added (a : Action) : option string :=
  match a with
  | Run [ p; s; verb; name; _ ] _ =>
      if String.eqb p "git" && String.eqb s "remote" && String.eqb verb "add"
      then Some name else None
  | _ => None
  end.

(** The remote a call relies on: [name] in [git fetch name ...] and in
    [mkdocs ... --remote-name name]. *)
Definition remote_used (a : Action) : option string :=
  match a with
  | Run (p :: s :: args) _ =>
      if String.eqb p "git" && String.eqb s "fetch" then head args
      else if String.eqb p "mkdocs" then arg_after "--remote-name" args
      else None
  | _ => None
  end.

(** The arguments handed to a call. *)
Definition arguments (a : Action) : list string :=
  match a with
  | Install args | Run args _ => args
  | BrowserOpen url => [ url ]
  end.

(** ** Sample environments *)

(** A CI runner with a token, a developer machine with a token, and two
    environments in which a variable is set to the empty string (what a
    workflow gets from an undefined secret, or from [CI= nox]). *)
Definition env_runner : gmap string string :=
  <[ "CI" := "true" ]> {[ "GITHUB_TOKEN" := "ghp_0123" ]}.

Definition env_laptop : gmap string string :=
  {[ "GITHUB_TOKEN" := "ghp_0123" ]}.

Definition env_blank_token : gmap string string :=
  {[ "GITHUB_TOKEN" := "" ]}.

Definition env_blank_ci : gmap string string :=
  <[ "CI" := "" ]> {[ "GITHUB_TOKEN" := "ghp_0123" ]}.

Definition env_ci_no_token : gmap string string :=
  <[ "CI" := "true" ]> {[ "HOME" := "/home/runner" ]}.

Definition env_token_no_ci : gmap string string :=
  <[ "GITHUB_TOKEN" := "ghp_0123" ]> {[ "HOME" := "/home/runner" ]}.

(** Another CI runner: a different token, [CI] spelled differently and
    more variables around. *)
Definition env_other_runner : gmap string string :=
  <[ "CI" := "1" ]>
    (<[ "HOME" := "/home/runner" ]> {[ "GITHUB_TOKEN" := "ghp_4567" ]}).


Definition env_same_token_runner : gmap string string :=
  <[ "CI" := "1" ]>
    (<[ "HOME" := "/home/runner" ]> {[ "GITHUB_TOKEN" := "ghp_0123" ]}).

(** ** Running the tasks *)

Section Runs.
Variable env : gmap string string.

Lemma exec_build :
  exec env build
  = ([ Install TOOLING; Install DOCS_DEPS;
       Run [ "mkdocs"; "build"; "--clean" ] false ], Done tt).
Proof. reflexivity. Qed.

Lemma exec_serve :
  exec env serve
  = ([ Install TOOLING; Install DOCS_DEPS;
       BrowserOpen "http://127.0.0.1:8000/spok/";
       Run [ "mkdocs"; "serve" ] false ], Done tt).
Proof. reflexivity. Qed.

Lemma exec_ON_CI : exec env ON_CI = ([], Done (truthy (env !! "CI"))).
Proof. reflexivity. Qed.

(** [publish] unfolded once: what it does after each of the two reads. *)
Lemma exec_publish :
  exec env publish
  = if truthy (env !! "GITHUB_TOKEN") then
      if truthy (env !! "CI") then
        ([ Install TOOLING; Install DOCS_DEPS;
           Run [ "git"; "remote"; "add"; "gh-token";
                 "https://" +:+ format_value (env !! "GITHUB_TOKEN")
                   +:+ "@github.com/FollowTheProcess/spok.git" ] true;
           Run [ "git"; "fetch"; "gh-token" ] true;
           Run [ "git"; "fetch"; "gh-token"; "gh-pages:gh-pages" ] true;
           Run [ "mkdocs"; "gh-deploy"; "-v"; "--clean";
                 "--remote-name"; "gh-token" ] false ], Done tt)
      else
        ([ Install TOOLING; Install DOCS_DEPS;
           Run [ "mkdocs"; "gh-deploy" ] false ], Done tt)
    else ([], Quit NO_TOKEN).
Proof.
  unfold exec, publish, ON_CI, os_getenv, mbind, task_bind.
  destruct (truthy (env !! "GITHUB_TOKEN")); [| reflexivity].
  cbn [negb when]. unfold session_install, session_run, call, mret, task_ret.
  cbn [app].
  destruct (truthy (env !! "CI")); reflexivity.
Qed.
End Runs.

(** ** What the two reads decide *)

Lemma truthy_true (v : option string) :
  truthy v = true ↔ ∃ s, v = Some s ∧ s ≠ "".
Proof.
  split.
  - destruct v as [[| c s] |]; simpl; try discriminate.
    intros _. exists (String c s). split; [reflexivity | discriminate].
  - intros (s & -> & Hs). destruct s; [contradiction | reflexivity].
Qed.

Lemma truthy_false (v : option string) :
  truthy v = false ↔ v = None ∨ v = Some "".
Proof.
  split.
  - destruct v as [[| c s] |]; simpl; try discriminate; auto.
  - intros [-> | ->]; reflexivity.
Qed.

Lemma ON_CI_set (env : gmap string string) (b : bool) :
  outcome env ON_CI = Done b ↔ truthy (env !! "CI") = b.
Proof.
  unfold outcome. rewrite exec_ON_CI. simpl.
  split; [intros [= ->] | intros ->]; reflexivity.
Qed.

Section Publish.
Variable env : gmap string string.

Lemma publish_refused :
  truthy (env !! "GITHUB_TOKEN") = false →
  exec env publish = ([], Quit NO_TOKEN).
Proof. intros H. rewrite exec_publish, H. reflexivity. Qed.

Lemma publish_on_ci (tok : string) :
  env !! "GITHUB_TOKEN" = Some tok → tok ≠ "" →
  truthy (env !! "CI") = true →
  exec env publish
  = ([ Install TOOLING; Install DOCS_DEPS;
       Run [ "git"; "remote"; "add"; "gh-token";
             "https://" +:+ tok
               +:+ "@github.com/FollowTheProcess/spok.git" ] true;
       Run [ "git"; "fetch"; "gh-token" ] true;
       Run [ "git"; "fetch"; "gh-token"; "gh-pages:gh-pages" ] true;
       Run [ "mkdocs"; "gh-deploy"; "-v"; "--clean";
             "--remote-name"; "gh-token" ] false ], Done tt).
Proof.
  intros Htok Hne Hci. rewrite exec_publish, Hci, Htok.
  destruct tok; [contradiction | reflexivity].
Qed.

Lemma publish_off_ci (tok : string) :
  env !! "GITHUB_TOKEN" = Some tok → tok ≠ "" →
  truthy (env !! "CI") = false →
  exec env publish
  = ([ Install TOOLING; Install DOCS_DEPS;
       Run [ "mkdocs"; "gh-deploy" ] false ], Done tt).
Proof.
  intros Htok Hne Hci. rewrite exec_publish, Hci, Htok.
  destruct tok; [contradiction | reflexivity].
Qed.

Lemma takes_ci_branch_iff :
  takes_ci_branch env = true
  ↔ truthy (env !! "CI") = true ∧ truthy (env !! "GITHUB_TOKEN") = true.
Proof.
  unfold takes_ci_branch, trace. rewrite exec_publish.
  destruct (truthy (env !! "GITHUB_TOKEN")), (truthy (env !! "CI"));
    simpl; intuition discriminate.
Qed.

Lemma takes_local_branch_iff :
  takes_local_branch env = true
  ↔ truthy (env !! "CI") = false ∧ truthy (env !! "GITHUB_TOKEN") = true.
Proof.
  unfold takes_local_branch, trace. rewrite exec_publish.
  destruct (truthy (env !! "GITHUB_TOKEN")), (truthy (env !! "CI"));
    simpl; intuition discriminate.
Qed.
End Publish.

(** ** Logs that start with the two installs *)

Lemma filter_installer_none (log : list Action) :
  Forall (λ a, is_installer a = false) log →
  List.filter is_installer log = [].
Proof.
  induction 1 as [| a log Ha _ IH]; simpl; [reflexivity |].
  rewrite Ha. exact IH.
Qed.

Lemma docs_installed_first_intro (rest : list Action) :
  Forall (λ a, is_installer a = false) rest →
  (∃ a, a ∈ rest ∧ is_generator a = true) →
  docs_installed_first (Install TOOLING :: Install DOCS_DEPS :: rest).
Proof.
  intros Hrest (g & Hin & Hg). repeat split.
  - simpl. rewrite (filter_installer_none _ Hrest). reflexivity.
  - exists g. split; [| exact Hg]. do 2 apply list_elem_of_further. exact Hin.
  - intros before a after Hsplit Ha.
    destruct before as [| b0 [| b1 before]]; simplify_eq/=.
    apply list_elem_of_further, list_elem_of_here.
Qed.

(** Splitting a log that is known call by call: every position of the
    split is tried in turn. *)
Ltac split_known_log before :=
  repeat (destruct before as [| ? before]; simplify_eq/=; try done).

(** ** publish *)

(** C1: with a credential in the environment and the CI flag on, [publish]
    issues, in this order, the two installs, then add-remote, fetch-remote,
    fetch-branch (into [gh-pages:gh-pages]) and the generator's deploy
    command with [-v], [--clean] and [--remote-name gh-token]; the URL
    given to add-remote contains the credential. *)
Theorem publish_ci_calls_in_order (env : gmap string string) (tok : string) :
  env !! "GITHUB_TOKEN" = Some tok → tok ≠ "" →
  outcome env ON_CI = Done true →
  ∃ url,
    trace env publish
    = [ Install TOOLING; Install DOCS_DEPS;
        Run [ "git"; "remote"; "add"; "gh-token"; url ] true;
        Run [ "git"; "fetch"; "gh-token" ] true;
        Run [ "git"; "fetch"; "gh-token"; "gh-pages:gh-pages" ] true;
        Run [ "mkdocs"; "gh-deploy"; "-v"; "--clean";
              "--remote-name"; "gh-token" ] false ]
    ∧ url = "https://" +:+ tok +:+ "@github.com/FollowTheProcess/spok.git"
    ∧ contains tok url
    ∧ outcome env publish = Done tt.
Proof.
  intros Htok Hne Hci. apply ON_CI_set in Hci.
  exists ("https://" +:+ tok +:+ "@github.com/FollowTheProcess/spok.git").
  unfold trace, outcome. rewrite (publish_on_ci env tok Htok Hne Hci).
  repeat split.
  exists "https://", "@github.com/FollowTheProcess/spok.git". reflexivity.
Qed.

Lemma publish_ci_calls_in_order_runner :
  ∃ url,
    trace env_runner publish
    = [ Install TOOLING; Install DOCS_DEPS;
        Run [ "git"; "remote"; "add"; "gh-token"; url ] true;
        Run [ "git"; "fetch"; "gh-token" ] true;
        Run [ "git"; "fetch"; "gh-token"; "gh-pages:gh-pages" ] true;
        Run [ "mkdocs"; "gh-deploy"; "-v"; "--clean";
              "--remote-name"; "gh-token" ] false ]
    ∧ url = "https://ghp_0123@github.com/FollowTheProcess/spok.git"
    ∧ contains "ghp_0123" url
    ∧ outcome env_runner publish = Done tt.
Proof.
  apply (publish_ci_calls_in_order env_runner "ghp_0123");
    [reflexivity | discriminate | reflexivity].
Defined.

(** C2: without a credential (the variable unset, or set to the empty
    string) [publish] ends in the error, with a message and a non-zero
    exit status, and has issued no call at all: no install, no site
    generator, no version control. *)
Theorem publish_without_credential (env : gmap string string) :
  env !! "GITHUB_TOKEN" = None ∨ env !! "GITHUB_TOKEN" = Some "" →
  outcome env publish = Quit NO_TOKEN
  ∧ NO_TOKEN ≠ ""
  ∧ exit_status (outcome env publish) ≠ 0%Z
  ∧ trace env publish = []
  ∧ count is_installer (trace env publish) = 0
  ∧ count is_generator (trace env publish) = 0
  ∧ count is_vcs (trace env publish) = 0.
Proof.
  intros H. apply truthy_false in H.
  unfold outcome, trace. rewrite (publish_refused env H). simpl.
  repeat split; discriminate.
Qed.

Lemma publish_without_credential_bare :
  outcome ∅ publish = Quit NO_TOKEN
  ∧ NO_TOKEN ≠ ""
  ∧ exit_status (outcome (∅ : gmap string string) publish) ≠ 0%Z
  ∧ trace ∅ publish = []
  ∧ count is_installer (trace ∅ publish) = 0
  ∧ count is_generator (trace ∅ publish) = 0
  ∧ count is_vcs (trace ∅ publish) = 0.
Proof.
  apply (publish_without_credential ∅). left. reflexivity.
Defined.

(** C3, as stated, fails: with [GITHUB_TOKEN] set to the empty string the
    variable is in the environment and [publish] still stops with the
    precondition error. *)
Lemma publish_refuses_blank_token :
  ¬ (outcome env_blank_token publish = Quit NO_TOKEN
     ↔ env_blank_token !! "GITHUB_TOKEN" = None).
Proof.
  intros [Hfails _]. specialize (Hfails eq_refl). discriminate Hfails.
Qed.

(** C3, amended: [publish] stops with the precondition error exactly when
    [GITHUB_TOKEN] is unset or set to the empty string; it is the only
    error [publish] raises, and otherwise [publish] returns. *)
Theorem publish_fails_iff_no_token (env : gmap string string) :
  (outcome env publish = Quit NO_TOKEN
   ↔ env !! "GITHUB_TOKEN" = None ∨ env !! "GITHUB_TOKEN" = Some "")
  ∧ (∀ msg, outcome env publish = Quit msg → msg = NO_TOKEN)
  ∧ (outcome env publish ≠ Quit NO_TOKEN → outcome env publish = Done tt).
Proof.
  rewrite <- truthy_false. unfold outcome. rewrite exec_publish.
  destruct (truthy (env !! "GITHUB_TOKEN")), (truthy (env !! "CI")); simpl;
    repeat split; try congruence; try discriminate.
Qed.

(** C4, as stated, fails: with [CI] set to the empty string (and a
    credential present) the variable is in the environment and [publish]
    does not take the CI branch. *)
Lemma publish_blank_ci_not_ci_branch :
  ¬ (takes_ci_branch env_blank_ci = true
     ↔ is_Some (env_blank_ci !! "CI")).
Proof.
  intros [_ Htakes].
  assert (is_Some (env_blank_ci !! "CI")) as Hset by (exists ""; reflexivity).
  specialize (Htakes Hset). discriminate Htakes.
Qed.

(** With [CI] set and no credential, [publish] stops before the branch. *)
Example publish_ci_no_token :
  is_Some (env_ci_no_token !! "CI")
  ∧ takes_ci_branch env_ci_no_token = false
  ∧ takes_local_branch env_ci_no_token = false.
Proof. split; [exists "true" |]; done. Qed.

(** C4, amended: [publish] takes the CI branch exactly when [CI] is set to
    a non-empty string and [publish] got past its credential check
    ([GITHUB_TOKEN] set to a non-empty string); it takes the other branch
    exactly when it got past the check and [CI] is unset or empty.  The
    flag [ON_CI] is on exactly when [CI] is set to a non-empty string. *)
Theorem publish_ci_branch_iff (env : gmap string string) :
  (takes_ci_branch env = true
   ↔ (∃ ci, env !! "CI" = Some ci ∧ ci ≠ "")
     ∧ (∃ tok, env !! "GITHUB_TOKEN" = Some tok ∧ tok ≠ ""))
  ∧ (takes_local_branch env = true
     ↔ (env !! "CI" = None ∨ env !! "CI" = Some "")
       ∧ (∃ tok, env !! "GITHUB_TOKEN" = Some tok ∧ tok ≠ ""))
  ∧ (outcome env ON_CI = Done true
     ↔ ∃ ci, env !! "CI" = Some ci ∧ ci ≠ "").
Proof.
  rewrite takes_ci_branch_iff, takes_local_branch_iff, ON_CI_set.
  rewrite <- !truthy_true, <- truthy_false. tauto.
Qed.

(** C5: with a credential in the environment and the CI flag off,
    [publish] issues one deploy command, [mkdocs gh-deploy] with nothing
    else on its command line (no [--remote-name]), and no version-control
    command. *)
Theorem publish_local_single_deploy
    (env : gmap string string) (tok : string) :
  env !! "GITHUB_TOKEN" = Some tok → tok ≠ "" →
  outcome env ON_CI = Done false →
  trace env publish
  = [ Install TOOLING; Install DOCS_DEPS; Run [ "mkdocs"; "gh-deploy" ] false ]
  ∧ count is_deploy (trace env publish) = 1
  ∧ (∀ a, a ∈ trace env publish → is_deploy a = true →
          has_arg "--remote-name" a = false)
  ∧ count is_vcs (trace env publish) = 0.
Proof.
  intros Htok Hne Hci. apply ON_CI_set in Hci.
  unfold trace. rewrite (publish_off_ci env tok Htok Hne Hci). simpl.
  repeat split.
  intros a Hin Ha. set_unfold in Hin.
  destruct Hin as [-> | [-> | [-> | []]]]; done.
Qed.

Lemma publish_local_single_deploy_laptop :
  trace env_laptop publish
  = [ Install TOOLING; Install DOCS_DEPS; Run [ "mkdocs"; "gh-deploy" ] false ]
  ∧ count is_deploy (trace env_laptop publish) = 1
  ∧ (∀ a, a ∈ trace env_laptop publish → is_deploy a = true →
          has_arg "--remote-name" a = false)
  ∧ count is_vcs (trace env_laptop publish) = 0.
Proof.
  apply (publish_local_single_deploy env_laptop "ghp_0123");
    [reflexivity | discriminate | reflexivity].
Defined.

(** ** The dependency list *)

(** C6: [build], [serve] and [publish] (once past its credential check)
    pass the same list to the install step for the documentation
    dependencies: the three names of [DOCS_DEPS], in that order.  That
    step, the only install besides the tooling upgrade, comes before every
    call of the site generator. *)
Theorem docs_deps_same_and_first :
  DOCS_DEPS = [ "mkdocs"; "mkdocs-material"; "mkdocs-include-markdown-plugin" ]
  ∧ length DOCS_DEPS = 3
  ∧ (∀ env, docs_installed_first (trace env build))
  ∧ (∀ env, docs_installed_first (trace env serve))
  ∧ (∀ env tok,
       env !! "GITHUB_TOKEN" = Some tok → tok ≠ "" →
       docs_installed_first (trace env publish)).
Proof.
  split; [reflexivity |]. split; [reflexivity |].
  split; [| split].
  - intros env. unfold trace. rewrite exec_build.
    apply docs_installed_first_intro.
    + repeat constructor.
    + eexists. split; [apply list_elem_of_here | reflexivity].
  - intros env. unfold trace. rewrite exec_serve.
    apply docs_installed_first_intro.
    + repeat constructor.
    + eexists. split; [apply list_elem_of_further, list_elem_of_here
                      | reflexivity].
  - intros env tok Htok Hne. unfold trace.
    destruct (truthy (env !! "CI")) eqn:Hci.
    + rewrite (publish_on_ci env tok Htok Hne Hci).
      apply docs_installed_first_intro.
      * repeat constructor.
      * eexists. split; [do 3 apply list_elem_of_further;
                         apply list_elem_of_here | reflexivity].
    + rewrite (publish_off_ci env tok Htok Hne Hci).
      apply docs_installed_first_intro.
      * repeat constructor.
      * eexists. split; [apply list_elem_of_here | reflexivity].
Qed.

Lemma docs_deps_same_and_first_runner :
  docs_installed_first (trace env_runner publish).
Proof.
  apply (proj2 (proj2 (proj2 (proj2 docs_deps_same_and_first)))
           env_runner "ghp_0123");
    [reflexivity | discriminate].
Defined.

(** ** serve *)

(** C7: every run of [serve] opens the browser once, at
    [http://127.0.0.1:8000/spok/]; wherever the log is cut at the
    generator's serve command, that one opening lies before the cut and
    none after it. *)
Theorem serve_opens_browser_before_serving (env : gmap string string) :
  count is_browser (trace env serve) = 1
  ∧ (∀ a, a ∈ trace env serve → is_browser a = true →
          a = BrowserOpen "http://127.0.0.1:8000/spok/")
  ∧ count is_serve (trace env serve) = 1
  ∧ ∀ before a after,
      trace env serve = before ++ a :: after → is_serve a = true →
      count is_browser before = 1
      ∧ BrowserOpen "http://127.0.0.1:8000/spok/" ∈ before
      ∧ count is_browser after = 0.
Proof.
  unfold trace. rewrite exec_serve. simpl. repeat split.
  - intros a Hin Ha. set_unfold in Hin.
    destruct Hin as [-> | [-> | [-> | [-> | []]]]]; done.
  - split_known_log before.
  - split_known_log before. set_solver.
  - split_known_log before.
Qed.

(** ** build *)

(** C8: every run of [build] calls the generator's build subcommand once,
    with [--clean]; it starts no server, opens no browser, calls no
    version control, and returns. *)
Theorem build_builds_once_clean (env : gmap string string) :
  count is_build (trace env build) = 1
  ∧ (∀ a, a ∈ trace env build → is_build a = true →
          has_arg "--clean" a = true)
  ∧ count is_serve (trace env build) = 0
  ∧ count is_browser (trace env build) = 0
  ∧ count is_vcs (trace env build) = 0
  ∧ outcome env build = Done tt.
Proof.
  unfold trace, outcome. rewrite exec_build. simpl. repeat split.
  intros a Hin Ha. set_unfold in Hin.
  destruct Hin as [-> | [-> | [-> | []]]]; done.
Qed.

(** ** build and serve do not read the environment *)

(** C10: in two environments that agree on every variable other than [CI]
    and [GITHUB_TOKEN], [build] issues the same calls and ends the same
    way, and so does [serve]. *)
Theorem build_serve_ignore_ci_and_token (env1 env2 : gmap string string) :
  delete "CI" (delete "GITHUB_TOKEN" env1)
  = delete "CI" (delete "GITHUB_TOKEN" env2) →
  exec env1 build = exec env2 build
  ∧ exec env1 serve = exec env2 serve.
Proof.
  intros _. rewrite !exec_build, !exec_serve. split; reflexivity.
Qed.

Lemma build_serve_ignore_ci_and_token_sample :
  exec env_ci_no_token build = exec env_token_no_ci build
  ∧ exec env_ci_no_token serve = exec env_token_no_ci serve.
Proof.
  apply (build_serve_ignore_ci_and_token env_ci_no_token env_token_no_ci).
  vm_compute. reflexivity.
Defined.

(** * Further properties of the three sessions *)

(** The registry holds the three functions and nothing else. *)
Lemma registry_cases (name : string) (t : Task unit) :
  (name, t) ∈ registry →
  (name = "build" ∧ t = build)
  ∨ (name = "serve" ∧ t = serve)
  ∨ (name = "publish" ∧ t = publish).
Proof.
  unfold registry. rewrite !elem_of_cons, elem_of_nil.
  intros [[= -> ->] | [[= -> ->] | [[= -> ->] | []]]]; auto.
Qed.

(** Every log [publish] can leave, by the two truth values it tests. *)
Ltac publish_cases env :=
  unfold trace, outcome in *; rewrite ?(exec_publish env) in *;
  destruct (truthy (env !! "GITHUB_TOKEN")) eqn:?,
           (truthy (env !! "CI")) eqn:?; simpl in *.

Ltac from_docs_deps :=
  exists DOCS_DEPS; split;
  [ apply list_elem_of_further, list_elem_of_here | apply list_elem_of_here ].

Lemma git_never_installed (deps : list string) (rest : list Action) :
  Forall (λ a, is_installer a = false) rest →
  Install deps ∈ Install TOOLING :: Install DOCS_DEPS :: rest →
  "git" ∉ deps.
Proof.
  intros Hrest Hin. rewrite !elem_of_cons in Hin.
  destruct Hin as [[= ->] | [[= ->] | Hin]].
  - rewrite list_elem_of_In. simpl. intuition discriminate.
  - rewrite list_elem_of_In. simpl. intuition discriminate.
  - rewrite Forall_forall in Hrest. apply Hrest in Hin. discriminate Hin.
Qed.

Ltac never_installed :=
  split; [reflexivity |];
  let deps := fresh "deps" in
  let Hin := fresh "Hin" in
  intros deps Hin; apply git_never_installed in Hin;
  [exact Hin | repeat constructor].

(** X1: a command run without [external=True] names a program that an
    earlier [session.install] of the same run has installed; the commands
    run with [external=True] are the [git] ones, and [git] is in no
    install list. *)
Theorem commands_installed_or_external
    (env : gmap string string) (name : string) (t : Task unit) :
  (name, t) ∈ registry →
  ∀ before p args ext after,
    trace env t = before ++ Run (p :: args) ext :: after →
    if (ext : bool) then
      p = "git" ∧ ∀ deps, Install deps ∈ trace env t → p ∉ deps
    else ∃ deps, Install deps ∈ before ∧ p ∈ deps.
Proof.
  intros Hreg before p args ext after Hsplit.
  destruct (registry_cases _ _ Hreg) as [[-> ->] | [[-> ->] | [-> ->]]].
  - unfold trace in *. rewrite exec_build in *. simpl in *.
    split_known_log before. from_docs_deps.
  - unfold trace in *. rewrite exec_serve in *. simpl in *.
    split_known_log before. from_docs_deps.
  - publish_cases env.
    + split_known_log before; first [from_docs_deps | never_installed].
    + split_known_log before. from_docs_deps.
    + destruct before; discriminate.
    + destruct before; discriminate.
Qed.

Lemma commands_installed_or_external_serve :
  ∃ deps,
    Install deps
      ∈ [ Install TOOLING; Install DOCS_DEPS;
          BrowserOpen "http://127.0.0.1:8000/spok/" ]
    ∧ "mkdocs" ∈ deps.
Proof.
  apply (commands_installed_or_external env_laptop "serve" serve
           ltac:(apply list_elem_of_further, list_elem_of_here)
           [ Install TOOLING; Install DOCS_DEPS;
             BrowserOpen "http://127.0.0.1:8000/spok/" ]
           "mkdocs" [ "serve" ] false []).
  reflexivity.
Defined.

(** X2: a call that names a remote, [git fetch name ...] or
    [mkdocs ... --remote-name name], comes after a [git remote add name url]
    of that name in the same run. *)
Theorem remote_added_before_use
    (env : gmap string string) (name : string) (t : Task unit) :
  (name, t) ∈ registry →
  ∀ before a after r,
    trace env t = before ++ a :: after →
    remote_used a = Some r →
    ∃ b, b ∈ before ∧ remote_added b = Some r.
Proof.
  intros Hreg before a after r Hsplit Hused.
  destruct (registry_cases _ _ Hreg) as [[-> ->] | [[-> ->] | [-> ->]]].
  - unfold trace in *. rewrite exec_build in *. simpl in *.
    split_known_log before.
  - unfold trace in *. rewrite exec_serve in *. simpl in *.
    split_known_log before.
  - publish_cases env.
    + split_known_log before;
        (eexists; split;
         [ do 2 apply list_elem_of_further; apply list_elem_of_here
         | reflexivity ]).
    + split_known_log before.
    + destruct before; discriminate.
    + destruct before; discriminate.
Qed.

Lemma remote_added_before_use_runner :
  ∃ b,
    b ∈ [ Install TOOLING; Install DOCS_DEPS;
          Run [ "git"; "remote"; "add"; "gh-token";
                "https://ghp_0123@github.com/FollowTheProcess/spok.git" ]
            true;
          Run [ "git"; "fetch"; "gh-token" ] true;
          Run [ "git"; "fetch"; "gh-token"; "gh-pages:gh-pages" ] true ]
    ∧ remote_added b = Some "gh-token".
Proof.
  apply (remote_added_before_use env_runner "publish" publish
           ltac:(do 2 apply list_elem_of_further; apply list_elem_of_here)
           _
           (Run [ "mkdocs"; "gh-deploy"; "-v"; "--clean";
                  "--remote-name"; "gh-token" ] false)
           [] "gh-token");
    reflexivity.
Defined.



(** X4: [publish] looks at nothing in the environment but the value of
    [GITHUB_TOKEN] and the truth value of [CI]: two environments that agree
    on these give the same calls and the same result, whatever the
    spelling of [CI] and whatever else is set. *)
Theorem publish_reads_only_token_and_ci (env1 env2 : gmap string string) :
  env1 !! "GITHUB_TOKEN" = env2 !! "GITHUB_TOKEN" →
  truthy (env1 !! "CI") = truthy (env2 !! "CI") →
  exec env1 publish = exec env2 publish.
Proof.
  intros Htok Hci. rewrite !exec_publish, Htok, Hci. reflexivity.
Qed.

Lemma publish_reads_only_token_and_ci_runners :
  exec env_runner publish = exec env_same_token_runner publish.
Proof.
  apply (publish_reads_only_token_and_ci env_runner env_same_token_runner);
    reflexivity.
Defined.

(** X5: only [publish] deploys, calls the version-control client or runs
    anything with [external=True]; only [serve] opens a browser or starts
    the preview server. *)
Theorem deploy_only_in_publish_browser_only_in_serve
    (env : gmap string string) (name : string) (t : Task unit) :
  (name, t) ∈ registry →
  (name ≠ "publish" →
     count is_deploy (trace env t) = 0
     ∧ count is_vcs (trace env t) = 0
     ∧ count is_external (trace env t) = 0)
  ∧ (name ≠ "serve" →
     count is_browser (trace env t) = 0
     ∧ count is_serve (trace env t) = 0).
Proof.
  intros Hreg.
  destruct (registry_cases _ _ Hreg) as [[-> ->] | [[-> ->] | [-> ->]]].
  - unfold trace. rewrite exec_build. simpl. repeat split.
  - unfold trace. rewrite exec_serve. simpl.
    split; [repeat split | intros Hne; contradiction].
  - split; [intros Hne; contradiction |]. intros _.
    publish_cases env; repeat split.
Qed.

Lemma deploy_only_in_publish_browser_only_in_serve_build :
  (count is_deploy (trace env_runner build) = 0
   ∧ count is_vcs (trace env_runner build) = 0
   ∧ count is_external (trace env_runner build) = 0)
  ∧ count is_browser (trace env_runner build) = 0
  ∧ count is_serve (trace env_runner build) = 0.
Proof.
  destruct (deploy_only_in_publish_browser_only_in_serve
              env_runner "build" build ltac:(apply list_elem_of_here))
    as [Hbuild Hserve].
  split; [apply Hbuild | apply Hserve]; discriminate.
Defined.

(** X6: [publish] issues nothing after a deploy command and no deploy
    before it: wherever a deploy stands in the log, it is the last call and
    the only deploy. *)
Theorem publish_deploy_is_last
    (env : gmap string string) (before after : list Action) (d : Action) :
  trace env publish = before ++ d :: after →
  is_deploy d = true →
  after = []
  ∧ count is_deploy before = 0
  ∧ count is_deploy (trace env publish) = 1.
Proof.
  intros Hsplit Hd. publish_cases env.
  - split_known_log before.
  - split_known_log before.
  - destruct before; discriminate.
  - destruct before; discriminate.
Qed.

Lemma publish_deploy_is_last_runner :
  ([] : list Action) = []
  ∧ count is_deploy
      [ Install TOOLING; Install DOCS_DEPS;
        Run [ "git"; "remote"; "add"; "gh-token";
              "https://ghp_0123@github.com/FollowTheProcess/spok.git" ]
          true;
        Run [ "git"; "fetch"; "gh-token" ] true;
        Run [ "git"; "fetch"; "gh-token"; "gh-pages:gh-pages" ] true ] = 0
  ∧ count is_deploy (trace env_runner publish) = 1.
Proof.
  apply (publish_deploy_is_last env_runner _ []
           (Run [ "mkdocs"; "gh-deploy"; "-v"; "--clean";
                  "--remote-name"; "gh-token" ] false));
    reflexivity.
Defined.

(** X7: no session hands an empty argument list to [session.install] or
    [session.run], and no argument is the empty string: in particular the
    remote URL is never empty and [DOCS_DEPS] is not an empty install. *)
Theorem calls_have_arguments
    (env : gmap string string) (name : string) (t : Task unit) (a : Action) :
  (name, t) ∈ registry →
  a ∈ trace env t →
  arguments a ≠ [] ∧ "" ∉ arguments a.
Proof.
  intros Hreg Hin.
  destruct (registry_cases _ _ Hreg) as [[-> ->] | [[-> ->] | [-> ->]]].
  - unfold trace in *. rewrite exec_build in *. simpl in *.
    rewrite !elem_of_cons, elem_of_nil in Hin.
    destruct Hin as [-> | [-> | [-> | []]]];
      (split; [discriminate | rewrite list_elem_of_In; simpl;
                              intuition discriminate]).
  - unfold trace in *. rewrite exec_serve in *. simpl in *.
    rewrite !elem_of_cons, elem_of_nil in Hin.
    destruct Hin as [-> | [-> | [-> | [-> | []]]]];
      (split; [discriminate | rewrite list_elem_of_In; simpl;
                              intuition discriminate]).
  - publish_cases env.
    + rewrite !elem_of_cons, elem_of_nil in Hin.
      destruct Hin as [-> | [-> | [-> | [-> | [-> | [-> | []]]]]]];
        (split; [discriminate | rewrite list_elem_of_In; simpl;
                                intuition discriminate]).
    + rewrite !elem_of_cons, elem_of_nil in Hin.
      destruct Hin as [-> | [-> | [-> | []]]];
        (split; [discriminate | rewrite list_elem_of_In; simpl;
                                intuition discriminate]).
    + rewrite elem_of_nil in Hin. contradiction.
    + rewrite elem_of_nil in Hin. contradiction.
Qed.

Lemma calls_have_arguments_build :
  arguments (Install DOCS_DEPS) ≠ [] ∧ "" ∉ arguments (Install DOCS_DEPS).
Proof.
  apply (calls_have_arguments env_laptop "build" build (Install DOCS_DEPS)).
  - apply list_elem_of_here.
  - apply list_elem_of_further, list_elem_of_here.
Defined.

(** ** The remote URL and the credential *)

Lemma string_length_app (s t : string) :
  String.length (s +:+ t) = String.length s + String.length t.
Proof. induction s as [| c s IH]; simpl; [reflexivity | now rewrite IH]. Qed.

Lemma string_app_inv_tail (s1 s2 t : string) :
  s1 +:+ t = s2 +:+ t → s1 = s2.
Proof.
  revert s2. induction s1 as [| c1 s1 IH]; intros [| c2 s2] Heq.
  - reflexivity.
  - apply (f_equal String.length) in Heq.
    rewrite !string_length_app in Heq. simpl in Heq. lia.
  - apply (f_equal String.length) in Heq.
    rewrite !string_length_app in Heq. simpl in Heq. lia.
  - change (String c1 (s1 +:+ t) = String c2 (s2 +:+ t)) in Heq.
    injection Heq as -> Heq. f_equal. apply IH. exact Heq.
Qed.

(** X8: on CI the calls of [publish] tell the credential apart: two runs issue
    the same calls exactly when their tokens are the same. *)
Theorem publish_ci_same_calls_iff_same_token
    (env1 env2 : gmap string string) (tok1 tok2 : string) :
  env1 !! "GITHUB_TOKEN" = Some tok1 → tok1 ≠ "" →
  env2 !! "GITHUB_TOKEN" = Some tok2 → tok2 ≠ "" →
  truthy (env1 !! "CI") = true → truthy (env2 !! "CI") = true →
  trace env1 publish = trace env2 publish ↔ tok1 = tok2.
Proof.
  intros H1 Hne1 H2 Hne2 Hci1 Hci2. unfold trace.
  rewrite (publish_on_ci env1 tok1 H1 Hne1 Hci1),
          (publish_on_ci env2 tok2 H2 Hne2 Hci2).
  simpl. split.
  - intros [= Hurl].
    exact (string_app_inv_tail tok1 tok2
             "@github.com/FollowTheProcess/spok.git" Hurl).
  - intros ->. reflexivity.
Qed.

Lemma publish_ci_same_calls_iff_same_token_runners :
  trace env_runner publish = trace env_other_runner publish
  ↔ "ghp_0123" = "ghp_4567".
Proof.
  apply (publish_ci_same_calls_iff_same_token env_runner env_other_runner);
    [reflexivity | discriminate | reflexivity | discriminate
    | reflexivity | reflexivity].
Defined.

(** ** Set-up before anything else *)

(** X9: in every session, whatever is not an install (a command, the browser)
    comes after both installs: the tooling upgrade and the documentation
    dependencies, in that order. *)
Theorem installs_before_any_other_call
    (env : gmap string string) (name : string) (t : Task unit) :
  (name, t) ∈ registry →
  ∀ before a after,
    trace env t = before ++ a :: after →
    is_installer a = false →
    ∃ rest, before = Install TOOLING :: Install DOCS_DEPS :: rest
            ∧ count is_installer rest = 0.
Proof.
  intros Hreg before a after Hsplit Ha.
  destruct (registry_cases _ _ Hreg) as [[-> ->] | [[-> ->] | [-> ->]]].
  - unfold trace in *. rewrite exec_build in *. simpl in *.
    split_known_log before. eexists. split; reflexivity.
  - unfold trace in *. rewrite exec_serve in *. simpl in *.
    split_known_log before; (eexists; split; reflexivity).
  - publish_cases env.
    + split_known_log before; (eexists; split; reflexivity).
    + split_known_log before. eexists. split; reflexivity.
    + destruct before; discriminate.
    + destruct before; discriminate.
Qed.

Lemma installs_before_any_other_call_serve :
  ∃ rest,
    [ Install TOOLING; Install DOCS_DEPS ]
    = Install TOOLING :: Install DOCS_DEPS :: rest
    ∧ count is_installer rest = 0.
Proof.
  apply (installs_before_any_other_call env_laptop "serve" serve
           ltac:(apply list_elem_of_further, list_elem_of_here)
           [ Install TOOLING; Install DOCS_DEPS ]
           (BrowserOpen "http://127.0.0.1:8000/spok/")
           [ Run [ "mkdocs"; "serve" ] false ]);
    reflexivity.
Defined.
